(** * TenantSubfolderMiddleware (django_tenants/middleware/subfolder.py)

    A shallow embedding of the subfolder middleware: the constructor,
    [get_tenant_urlconf], [no_tenant_found] and [process_request].

    - Python exceptions are results ([Ok] / [Raise]); statements run in a
      monad of state and exceptions in which the state survives a raise.
    - The state holds the request (its path and the attributes set on it),
      the tenant objects that queries return (a heap, so that
      [request.tenant] and [connection.tenant] alias one object), the
      connection's tenant, the URL resolver state, and the log of what
      [process_request] did, in order.
    - Global names are looked up in the names the module binds and in the
      built-ins, as the interpreter does.
    - Settings, the two tables and the inherited helpers
      ([hostname_from_request], [get_tenant], [setup_url_routing]) are not in
      subfolder.py: they are the fields of [Env], and every statement is
      for all of them. *)

From stdpp Require Import gmap strings list fin_maps.
From Stdlib Require Import Ascii String.

Local Open Scope string_scope.

(** ** Python strings *)

Module PyStr.

(** The double quote character, for messages that contain it. *)
Definition dq : string := String "034"%char EmptyString.

(** [len(s)]. *)
Definition len (s : string) : nat := String.length s.

(** [s.startswith(p)]. *)
Fixpoint startswith (s p : string) {struct p} : bool :=
  match p with
  | EmptyString => true
  | String c p' =>
      match s with
      | EmptyString => false
      | String d s' => if Ascii.eqb c d then startswith s' p' else false
      end
  end.

(** [s[n:]]: the slice from index [n]; empty when [n] is past the end. *)
Fixpoint slice_from (n : nat) (s : string) : string :=
  match n with
  | O => s
  | S n' =>
      match s with
      | EmptyString => EmptyString
      | String _ s' => slice_from n' s'
      end
  end.

(** [s.split(sep)] for a separator of one character. *)
Fixpoint split (sep : ascii) (s : string) : list string :=
  match s with
  | EmptyString => [EmptyString]
  | String c s' =>
      if Ascii.eqb c sep then EmptyString :: split sep s'
      else
        match split sep s' with
        | [] => [String c EmptyString]
        | chunk :: chunks => String c chunk :: chunks
        end
  end.

(** Does the character [c] occur in [s]? *)
Fixpoint contains (c : ascii) (s : string) : bool :=
  match s with
  | EmptyString => false
  | String d s' => if Ascii.eqb d c then true else contains c s'
  end.

(** The first [sep]-separated segment of [s], as the claims word it: the
    characters of [s] up to, and not including, the first [sep]. *)
Fixpoint first_segment (sep : ascii) (s : string) : string :=
  match s with
  | EmptyString => EmptyString
  | String c s' =>
      if Ascii.eqb c sep then EmptyString else String c (first_segment sep s')
  end.

End PyStr.

(** ** Values, objects and exceptions *)

(** A reference to a tenant object materialised by a query. *)
Definition loc := nat.

(** One entry of [urlpatterns]: [path(route, include(urlconf))]. *)
Record UrlPattern := path_include { route : string; included : string }.

(** An instance of the local class [TenantUrlConf]: a module object carrying
    the class attribute [urlpatterns]. *)
Record TenantUrlConf := {
  module_name : string;
  urlpatterns : list UrlPattern
}.

Inductive val :=
| VNone
| VStr (s : string)
| VRef (l : loc)
| VModule (u : TenantUrlConf).

(** An object is its attribute dictionary. *)
Abbreviation obj := (gmap string val).

(** Python truthiness, as used by [if x:] and [not x]. *)
Definition truthy (v : val) : bool :=
  match v with
  | VNone => false
  | VStr s => negb (String.eqb s "")
  | VRef _ => true
  | VModule _ => true
  end.

(** [str(v)], as used by [format], [%s] and f-strings. Objects print an
    address in Python; a fixed tag stands for it. *)
Definition py_str (v : val) : string :=
  match v with
  | VNone => "None"
  | VStr s => s
  | VRef _ => "<object>"
  | VModule u => "<module '" +:+ module_name u +:+ "'>"
  end.

(** ["/{}/".format(v)]. *)
Definition format_slashes (v : val) : string := "/" +:+ py_str v +:+ "/".

(** A value that may be [None] or a string, such as a setting. *)
Definition of_setting (o : option string) : val :=
  match o with
  | None => VNone
  | Some s => VStr s
  end.

Inductive ModelKind := TenantModel | DomainModel.

Inductive exn :=
| Http404 (msg : string)
| ImproperlyConfigured (msg : string)
| NameError (name : string)
| KeyError (key : string)
| IndexError
| AttributeError (name : string)
| DoesNotExist (model : ModelKind).

Definition TENANT_NOT_FOUND_EXCEPTION : string -> exn := Http404.

Inductive result (A : Type) :=
| Ok (a : A)
| Raise (e : exn).
Arguments Ok {A} a.
Arguments Raise {A} e.

Definition is_DoesNotExist (m : ModelKind) (e : exn) : bool :=
  match e, m with
  | DoesNotExist TenantModel, TenantModel => true
  | DoesNotExist DomainModel, DomainModel => true
  | _, _ => false
  end.

(** ** The module namespace

    Global names are resolved in the module's globals, then in the
    built-ins; a name bound in neither raises [NameError]. *)

(** The names bound at module level by the import statements and the class
    statement of subfolder.py. *)
Definition module_globals : list string :=
  [ "settings"; "ImproperlyConfigured"; "connection"; "Http404";
    "set_urlconf"; "clear_url_caches"; "path"; "include";
    "TenantMainMiddleware";
    "get_public_schema_name"; "get_tenant_model"; "get_subfolder_prefix";
    "get_tenant_domain_model"; "has_multi_type_tenants"; "get_tenant_types";
    "TenantSubfolderMiddleware";
    "__name__"; "__doc__"; "__package__"; "__loader__"; "__spec__";
    "__file__"; "__cached__"; "__builtins__" ].

(** The names of the [builtins] module. *)
Definition builtins : list string :=
  [ "abs"; "aiter"; "all"; "anext"; "any"; "ascii"; "bin"; "bool";
    "breakpoint"; "bytearray"; "bytes"; "callable"; "chr"; "classmethod";
    "compile"; "complex"; "copyright"; "credits"; "delattr"; "dict"; "dir";
    "divmod"; "enumerate"; "eval"; "exec"; "exit"; "filter"; "float";
    "format"; "frozenset"; "getattr"; "globals"; "hasattr"; "hash"; "help";
    "hex"; "id"; "input"; "int"; "isinstance"; "issubclass"; "iter"; "len";
    "license"; "list"; "locals"; "map"; "max"; "memoryview"; "min"; "next";
    "object"; "oct"; "open"; "ord"; "pow"; "print"; "property"; "quit";
    "range"; "repr"; "reversed"; "round"; "set"; "setattr"; "slice";
    "sorted"; "staticmethod"; "str"; "sum"; "super"; "tuple"; "type";
    "vars"; "zip"; "__import__"; "__build_class__"; "__debug__";
    "None"; "True"; "False"; "Ellipsis"; "NotImplemented";
    "ArithmeticError"; "AssertionError"; "AttributeError"; "BaseException";
    "BaseExceptionGroup"; "BlockingIOError"; "BrokenPipeError";
    "BufferError"; "BytesWarning"; "ChildProcessError";
    "ConnectionAbortedError"; "ConnectionError"; "ConnectionRefusedError";
    "ConnectionResetError"; "DeprecationWarning"; "EOFError";
    "EncodingWarning"; "EnvironmentError"; "Exception"; "ExceptionGroup";
    "FileExistsError"; "FileNotFoundError"; "FloatingPointError";
    "FutureWarning"; "GeneratorExit"; "IOError"; "ImportError";
    "ImportWarning"; "IndentationError"; "IndexError"; "InterruptedError";
    "IsADirectoryError"; "KeyError"; "KeyboardInterrupt"; "LookupError";
    "MemoryError"; "ModuleNotFoundError"; "NameError"; "NotADirectoryError";
    "NotImplementedError"; "OSError"; "OverflowError";
    "PendingDeprecationWarning"; "PermissionError"; "ProcessLookupError";
    "PythonFinalizationError"; "RecursionError"; "ReferenceError";
    "ResourceWarning"; "RuntimeError"; "RuntimeWarning";
    "StopAsyncIteration"; "StopIteration"; "SyntaxError"; "SyntaxWarning";
    "SystemError"; "SystemExit"; "TabError"; "TimeoutError"; "TypeError";
    "UnboundLocalError"; "UnicodeDecodeError"; "UnicodeEncodeError";
    "UnicodeError"; "UnicodeTranslateError"; "UnicodeWarning"; "UserWarning";
    "ValueError"; "Warning"; "ZeroDivisionError" ].

Definition bound (name : string) : bool :=
  existsb (String.eqb name) (module_globals ++ builtins).

(** Loading a global name. *)
Definition load_global (name : string) : result unit :=
  if bound name then Ok tt else Raise (NameError name).

(** ** The state the middleware acts on *)

(** The request: its [path], and the attributes set on it dynamically
    ([tenant], [urlconf], and whatever other middleware stored). *)
Record Request := {
  path : string;
  extra : gmap string val
}.

(** [hasattr(request, name)]. *)
Definition hasattr (r : Request) (name : string) : bool :=
  match extra r !! name with
  | Some _ => true
  | None => false
  end.

(** The URL resolver state of the thread: the urlconf installed by
    [set_urlconf] and the resolver caches emptied by [clear_url_caches]. *)
Record UrlState := {
  urlconf_override : option val;
  url_cache : list string
}.

(** [connection.tenant]: the placeholder of the public schema, or a tenant
    object. *)
Inductive ConnTenant :=
| FakeTenant (schema_name : string)
| TenantRef (l : loc).

(** What [process_request] does, in order. *)
Inductive event :=
| EvSetSchemaToPublic
| EvTenantObjectsGet (schema_name : string)
| EvGetTenant (hostname : string)
| EvSetupUrlRouting (force_public : bool)
| EvSetattrTenant (l : loc) (name : string) (v : val)
| EvSetattrRequest (name : string) (v : val)
| EvSetTenant (l : loc)
| EvClearUrlCaches
| EvSetUrlconf (v : val).

Record State := {
  request : Request;
  heap : list (gmap string val);
  connection_tenant : ConnTenant;
  urls : UrlState;
  log : list event
}.

(** ** The monad of state and exceptions

    The state survives an exception: what was done before a [raise] stays
    done. *)

Definition M (A : Type) : Type := State -> result A * State.

Definition ret {A} (a : A) : M A := fun s => (Ok a, s).

Definition bind {A B} (m : M A) (k : A -> M B) : M B :=
  fun s =>
    match m s with
    | (Ok a, s') => k a s'
    | (Raise e, s') => (Raise e, s')
    end.

Definition raise {A} (e : exn) : M A := fun s => (Raise e, s).

Definition get : M State := fun s => (Ok s, s).

Definition modify (f : State -> State) : M unit := fun s => (Ok tt, f s).

(** [try: m  except <handled>: ...]: [None] when [m] raised a handled
    exception, which the caller then handles. *)
Definition try_except {A} (m : M A) (handled : exn -> bool) : M (option A) :=
  fun s =>
    match m s with
    | (Ok a, s') => (Ok (Some a), s')
    | (Raise e, s') => if handled e then (Ok None, s') else (Raise e, s')
    end.

#[global] Instance M_ret : MRet M := @ret.
#[global] Instance M_bind : MBind M := fun A B k m => bind m k.

(** Loading a global name inside the monad. *)
Definition global (name : string) : M unit := fun s => (load_global name, s).

Definition emit (ev : event) : M unit :=
  modify (fun s =>
    {| request := request s; heap := heap s;
       connection_tenant := connection_tenant s; urls := urls s;
       log := log s ++ [ev] |}).

Definition set_request (r : Request) : M unit :=
  modify (fun s =>
    {| request := r; heap := heap s;
       connection_tenant := connection_tenant s; urls := urls s;
       log := log s |}).

Definition set_heap (h : list (gmap string val)) : M unit :=
  modify (fun s =>
    {| request := request s; heap := h;
       connection_tenant := connection_tenant s; urls := urls s;
       log := log s |}).

Definition set_connection_tenant (c : ConnTenant) : M unit :=
  modify (fun s =>
    {| request := request s; heap := heap s;
       connection_tenant := c; urls := urls s;
       log := log s |}).

Definition set_urls (u : UrlState) : M unit :=
  modify (fun s =>
    {| request := request s; heap := heap s;
       connection_tenant := connection_tenant s; urls := u;
       log := log s |}).

(** A query result becomes a new object. *)
Definition alloc (row : gmap string val) : M loc :=
  s ← get; set_heap (heap s ++ [row]) ;; ret (List.length (heap s)).

(** [obj.name = v] on a tenant object. *)
Definition setattr_tenant (l : loc) (name : string) (v : val) : M unit :=
  emit (EvSetattrTenant l name v) ;;
  s ← get; set_heap (alter (insert name v) l (heap s)).

(** [obj.name] on a tenant object. *)
Definition getattr_tenant (l : loc) (name : string) : M val :=
  s ← get;
  match heap s !! l ≫= (.!! name) with
  | Some v => ret v
  | None => raise (AttributeError name)
  end.

(** [request.name = v]. *)
Definition setattr_request (name : string) (v : val) : M unit :=
  emit (EvSetattrRequest name v) ;;
  s ← get;
  set_request {| path := path (request s);
                 extra := <[name := v]> (extra (request s)) |}.

(** [request.name]. *)
Definition getattr_request (name : string) : M val :=
  s ← get;
  match extra (request s) !! name with
  | Some v => ret v
  | None => raise (AttributeError name)
  end.

(** [chunks[i]]. *)
Definition index (chunks : list string) (i : nat) : M string :=
  match chunks !! i with
  | Some c => ret c
  | None => raise IndexError
  end.

#[global] Instance result_ret : MRet result := @Ok.
#[global] Instance result_bind : MBind result :=
  fun A B k r =>
    match r with
    | Ok a => k a
    | Raise e => Raise e
    end.

(** ** What the middleware relies on

    Settings, the database and the inherited helpers are not part of
    subfolder.py; they are taken as given. *)

Record Env := {
  (** what [get_subfolder_prefix()] returns: [None] or a string *)
  subfolder_prefix : option string;
  (** what [get_public_schema_name()] returns *)
  public_schema_name : string;
  (** what [has_multi_type_tenants()] returns *)
  multi_type_tenants : bool;
  (** what [get_tenant_types()] returns *)
  tenant_types : gmap string (gmap string string);
  (** [settings.ROOT_URLCONF] *)
  ROOT_URLCONF : string;
  (** the inherited [hostname_from_request] *)
  hostname_of : Request -> string;
  (** the tenant table by [schema_name]; [None] is [DoesNotExist] *)
  tenant_rows : string -> option (gmap string val);
  (** the tenant of the domain table's row for a hostname, as the
      inherited [get_tenant] finds it; [None] is [DoesNotExist] *)
  domain_rows : string -> option (gmap string val);
  (** the tenant model's [get_tenant_type] *)
  tenant_type_of : gmap string val -> string;
  (** the inherited [setup_url_routing], which is handed the request and
      acts on it and on the URL resolver state *)
  url_routing : bool -> Request -> UrlState -> Request * UrlState
}.

(** The middleware object. *)
Record Middleware (H : Type) := { get_response : H }.
Arguments get_response {H} _.

Section TenantSubfolderMiddleware.

Context (E : Env).

(** *** Calls into the framework *)

Definition get_subfolder_prefix : M val :=
  global "get_subfolder_prefix" ;; mret (of_setting (subfolder_prefix E)).

Definition get_public_schema_name : M string :=
  global "get_public_schema_name" ;; mret (public_schema_name E).

Definition has_multi_type_tenants : M bool :=
  global "has_multi_type_tenants" ;; mret (multi_type_tenants E).

Definition get_tenant_types : M (gmap string (gmap string string)) :=
  global "get_tenant_types" ;; mret (tenant_types E).

Definition settings_ROOT_URLCONF : M string :=
  global "settings" ;; mret (ROOT_URLCONF E).

(** [d[key]] on a dictionary. *)
Definition getitem {V} (d : gmap string V) (key : string) : M V :=
  match d !! key with
  | Some v => mret v
  | None => raise (KeyError key)
  end.

(** [tenant.get_tenant_type()]. *)
Definition get_tenant_type (tenant : loc) : M string :=
  s ← get; mret (tenant_type_of E (default ∅ (heap s !! tenant))).

(** [connection.set_schema_to_public()]. *)
Definition connection_set_schema_to_public : M unit :=
  global "connection" ;;
  emit EvSetSchemaToPublic ;;
  set_connection_tenant (FakeTenant (public_schema_name E)).

(** [connection.set_tenant(tenant)]. *)
Definition connection_set_tenant (tenant : val) : M unit :=
  global "connection" ;;
  match tenant with
  | VRef l => emit (EvSetTenant l) ;; set_connection_tenant (TenantRef l)
  | _ => raise (AttributeError "schema_name")
  end.

(** [clear_url_caches()]. *)
Definition clear_url_caches : M unit :=
  global "clear_url_caches" ;;
  emit EvClearUrlCaches ;;
  s ← get;
  set_urls {| urlconf_override := urlconf_override (urls s);
              url_cache := [] |}.

(** [set_urlconf(urlconf)]. *)
Definition set_urlconf (urlconf : val) : M unit :=
  global "set_urlconf" ;;
  emit (EvSetUrlconf urlconf) ;;
  s ← get;
  set_urls {| urlconf_override :=
                if truthy urlconf then Some urlconf else None;
              url_cache := url_cache (urls s) |}.

(** [tenant_model.objects.get(schema_name=name)]. *)
Definition tenant_model_objects_get (name : string) : M loc :=
  emit (EvTenantObjectsGet name) ;;
  match tenant_rows E name with
  | Some row => alloc row
  | None => raise (DoesNotExist TenantModel)
  end.

(** [self.get_tenant(domain_model=domain_model, hostname=hostname)]. *)
Definition get_tenant (hostname : string) : M loc :=
  emit (EvGetTenant hostname) ;;
  match domain_rows E hostname with
  | Some row => alloc row
  | None => raise (DoesNotExist DomainModel)
  end.

(** [self.setup_url_routing(request, force_public=force_public)]. *)
Definition setup_url_routing (force_public : bool) : M unit :=
  emit (EvSetupUrlRouting force_public) ;;
  s ← get;
  let '(r, u) := url_routing E force_public (request s) (urls s) in
  set_request r ;; set_urls u.

(** *** The methods of the class *)

Definition ImproperlyConfigured_message : string :=
  PyStr.dq +:+ "TenantSubfolderMiddleware" +:+ PyStr.dq +:+ " requires "
  +:+ PyStr.dq +:+ "TENANT_SUBFOLDER_PREFIX" +:+ PyStr.dq +:+ " "
  +:+ "present and non-empty in settings".

Definition __init__ {H} (get_response : H) : result (Middleware H) :=
  (* super().__init__(get_response): the inherited constructor, which
     returns; then self.get_response = get_response *)
  load_global "super" ;;
  let self := {| get_response := get_response |} in
  load_global "get_subfolder_prefix" ;;
  if negb (truthy (of_setting (subfolder_prefix E))) then
    load_global "ImproperlyConfigured" ;;
    Raise (ImproperlyConfigured ImproperlyConfigured_message)
  else Ok self.

(** The local class and its instance, once the base of the class is
    loaded: the body of [class TenantUrlConf(ModuleType)], which binds
    [urlpatterns], then [TenantUrlConf(tenant.domain_subfolder)]. *)
Definition new_TenantUrlConf (subfolder_prefix : val) (urlconf : string)
    (tenant : loc) : M val :=
  global "path" ;;
  domain_subfolder ← getattr_tenant tenant "domain_subfolder";
  global "include" ;;
  let urlpatterns :=
    [ path_include
        (py_str subfolder_prefix +:+ "/" +:+ py_str domain_subfolder +:+ "/")
        urlconf ] in
  domain_subfolder ← getattr_tenant tenant "domain_subfolder";
  mret (VModule {| module_name := py_str domain_subfolder;
                   urlpatterns := urlpatterns |}).

Definition get_tenant_urlconf (tenant : loc) : M val :=
  multi ← has_multi_type_tenants;
  urlconf ← (if multi : bool then
               types ← get_tenant_types;
               tenant_type ← get_tenant_type tenant;
               entry ← getitem types tenant_type;
               getitem entry "URLCONF"
             else settings_ROOT_URLCONF);
  subfolder_prefix ← get_subfolder_prefix;
  (* class TenantUrlConf(ModuleType): the base is loaded first *)
  global "ModuleType" ;;
  new_TenantUrlConf subfolder_prefix urlconf tenant.

Definition no_tenant_found (hostname : string) : M unit :=
  raise (TENANT_NOT_FOUND_EXCEPTION
           ("No tenant for subfolder " +:+ PyStr.dq +:+ hostname +:+ PyStr.dq)).

Definition process_request : M unit :=
  s ← get;
  global "hasattr" ;;
  if hasattr (request s) "tenant" then mret tt
  else
    connection_set_schema_to_public ;;
    let urlconf := VNone in
    global "get_tenant_model" ;;
    global "get_tenant_domain_model" ;;
    let hostname := hostname_of E (request s) in
    prefix ← get_subfolder_prefix;
    let subfolder_prefix_path := format_slashes prefix in
    let resolved (tenant : loc) (urlconf : val) : M unit :=
      setattr_tenant tenant "domain_url" (VStr hostname) ;;
      setattr_request "tenant" (VRef tenant) ;;
      request_tenant ← getattr_request "tenant";
      connection_set_tenant request_tenant ;;
      clear_url_caches ;;
      if truthy urlconf then
        setattr_request "urlconf" urlconf ;;
        set_urlconf urlconf
      else mret tt
    in
    if negb (PyStr.startswith (path (request s)) subfolder_prefix_path) then
      public ← get_public_schema_name;
      found ← try_except (tenant_model_objects_get public)
                (is_DoesNotExist TenantModel);
      match found with
      | None =>
          raise (TENANT_NOT_FOUND_EXCEPTION "Unable to find public tenant")
      | Some tenant =>
          setup_url_routing true ;;
          resolved tenant urlconf
      end
    else
      global "len" ;;
      let path_chunks :=
        PyStr.split "/"
          (PyStr.slice_from (PyStr.len subfolder_prefix_path)
             (path (request s))) in
      tenant_subfolder ← index path_chunks 0;
      found ← try_except (get_tenant tenant_subfolder)
                (is_DoesNotExist DomainModel);
      match found with
      | None => no_tenant_found hostname
      | Some tenant =>
          setattr_tenant tenant "domain_subfolder" (VStr tenant_subfolder) ;;
          urlconf ← get_tenant_urlconf tenant;
          resolved tenant urlconf
      end.

End TenantSubfolderMiddleware.

(** ** The vocabulary of the statements *)

(** The string the request path is tested against. *)
Definition prefix_path (E : Env) : string :=
  format_slashes (of_setting (subfolder_prefix E)).

(** The condition of the dispatch. *)
Definition on_tenant_path (E : Env) (r : Request) : bool :=
  PyStr.startswith (path r) (prefix_path E).

(** The request path after the prefix. *)
Definition path_suffix (E : Env) (r : Request) : string :=
  PyStr.slice_from (PyStr.len (prefix_path E)) (path r).

(** The first "/"-separated segment of the path after the prefix. *)
Definition subfolder_of (E : Env) (r : Request) : string :=
  PyStr.first_segment "/" (path_suffix E r).

(** The database lookups among the events. *)
Definition is_lookup (ev : event) : bool :=
  match ev with
  | EvTenantObjectsGet _ | EvGetTenant _ => true
  | _ => false
  end.

Definition lookups (evs : list event) : list event := List.filter is_lookup evs.

Definition is_clear (ev : event) : bool :=
  match ev with
  | EvClearUrlCaches => true
  | _ => false
  end.

Definition cache_clears (evs : list event) : nat :=
  List.length (List.filter is_clear evs).

(** An assignment [process_request] itself may make: to
    [tenant.domain_subfolder], [tenant.domain_url], [request.tenant] or
    [request.urlconf]. *)
Definition own_attribute (ev : event) : bool :=
  match ev with
  | EvSetattrTenant _ name _ =>
      String.eqb name "domain_subfolder" || String.eqb name "domain_url"
  | EvSetattrRequest name _ =>
      String.eqb name "tenant" || String.eqb name "urlconf"
  | _ => true
  end.

(** Installing a urlconf: [request.urlconf = ...] or [set_urlconf(...)]. *)
Definition is_urlconf_install (ev : event) : bool :=
  match ev with
  | EvSetattrRequest name _ => String.eqb name "urlconf"
  | EvSetUrlconf _ => true
  | _ => false
  end.

Definition urlconf_installs (evs : list event) : list event :=
  List.filter is_urlconf_install evs.

(** ** A site to run requests against *)

Definition site : Env := {|
  subfolder_prefix := Some "clients";
  public_schema_name := "public";
  multi_type_tenants := false;
  tenant_types := ∅;
  ROOT_URLCONF := "project.urls";
  hostname_of := fun _ => "example.com";
  tenant_rows := fun name =>
    if String.eqb name "public"
    then Some {[ "schema_name" := VStr "public" ]} else None;
  domain_rows := fun hostname =>
    if String.eqb hostname "acme"
    then Some {[ "schema_name" := VStr "acme" ]} else None;
  tenant_type_of := fun _ => "default";
  url_routing := fun _ r u => (r, u)
|}.

(** A request as it reaches the middleware first: nothing set on it, the
    connection and the resolver cache as an earlier request left them. *)
Definition incoming (p : string) : State := {|
  request := {| path := p; extra := ∅ |};
  heap := [];
  connection_tenant := FakeTenant "public";
  urls := {| urlconf_override := None; url_cache := ["/clients/other/"] |};
  log := []
|}.

(** A request whose tenant an earlier middleware has set, while the
    connection is still on the public schema. *)
Definition resolved_upstream (p : string) : State := {|
  request := {| path := p; extra := {[ "tenant" := VRef 0 ]} |};
  heap := [ {[ "schema_name" := VStr "other" ]} ];
  connection_tenant := FakeTenant "public";
  urls := {| urlconf_override := None; url_cache := ["/clients/other/"] |};
  log := []
|}.

(** The same site with tenants of several types: the type "shop" has a
    urlconf, the type "blog" is declared without one, and tenants are of
    the type their row names. *)
Definition typed_site : Env := {|
  subfolder_prefix := Some "clients";
  public_schema_name := "public";
  multi_type_tenants := true;
  tenant_types :=
    {[ "shop" := {[ "URLCONF" := "shop.urls" ]};
       "blog" := {[ "APPS" := "blog" ]} ]};
  ROOT_URLCONF := "project.urls";
  hostname_of := fun _ => "example.com";
  tenant_rows := fun name =>
    if String.eqb name "public"
    then Some {[ "schema_name" := VStr "public" ]} else None;
  domain_rows := fun hostname =>
    if String.eqb hostname "acme"
    then Some {[ "schema_name" := VStr "acme" ]} else None;
  tenant_type_of := fun o =>
    match o !! "type" with
    | Some v => py_str v
    | None => "shop"
    end;
  url_routing := fun _ r u => (r, u)
|}.

(** A state holding one tenant object of the given type. *)
Definition with_tenant_of_type (type : string) : State := {|
  request := {| path := "/clients/acme/"; extra := ∅ |};
  heap := [ {[ "type" := VStr type; "domain_subfolder" := VStr "acme" ]} ];
  connection_tenant := FakeTenant "public";
  urls := {| urlconf_override := None; url_cache := [] |};
  log := []
|}.

(** * Properties *)

(** ** Strings *)

Section PyStrFacts.

Import PyStr.

Example split_two : split "/" "acme/page/1" = ["acme"; "page"; "1"].
Proof. reflexivity. Qed.

Example split_empty : split "/" "" = [""].
Proof. reflexivity. Qed.

Example split_leading : split "/" "/x" = [""; "x"].
Proof. reflexivity. Qed.

Example slice_past_end : slice_from 5 "abc" = "".
Proof. reflexivity. Qed.

Lemma append_nil (r : string) : "" +:+ r = r.
Proof. reflexivity. Qed.

Lemma append_cons (c : ascii) (p r : string) :
  String c p +:+ r = String c (p +:+ r).
Proof. reflexivity. Qed.

Lemma startswith_app (p r : string) : startswith (p +:+ r) p = true.
Proof.
  induction p as [|c p IH]; [done|].
  rewrite append_cons. simpl. by rewrite Ascii.eqb_refl.
Qed.

Lemma slice_from_app (p r : string) : slice_from (len p) (p +:+ r) = r.
Proof.
  induction p as [|c p IH]; [done|].
  rewrite append_cons. simpl. exact IH.
Qed.

Lemma startswith_inv (s p : string) :
  startswith s p = true -> s = p +:+ slice_from (len p) s.
Proof.
  revert s. induction p as [|c p IH]; intros s Hs; [done|].
  destruct s as [|d s]; [done|]. simpl in Hs.
  destruct (Ascii.eqb_spec c d) as [->|]; [|done].
  rewrite append_cons. simpl. f_equal. by apply IH.
Qed.

Lemma split_nonempty (sep : ascii) (s : string) : split sep s <> [].
Proof.
  destruct s as [|c s]; simpl; [done|].
  destruct (Ascii.eqb c sep); [done|].
  by destruct (split sep s).
Qed.

Lemma split_head (sep : ascii) (s : string) :
  split sep s !! 0 = Some (first_segment sep s).
Proof.
  induction s as [|c s IH]; simpl; [done|].
  destruct (Ascii.eqb c sep); [done|].
  destruct (split sep s) as [|chunk chunks]; [done|].
  simpl in *. by inversion IH.
Qed.

Lemma first_segment_no_sep (sep : ascii) (s : string) :
  contains sep (first_segment sep s) = false.
Proof.
  induction s as [|c s IH]; simpl; [done|].
  destruct (Ascii.eqb c sep) eqn:Hc; simpl; [done|].
  by rewrite Hc.
Qed.

Lemma first_segment_decompose (sep : ascii) (s : string) :
  exists rest,
    s = first_segment sep s +:+ rest
    /\ (rest = "" \/ exists r, rest = String sep r).
Proof.
  induction s as [|c s (rest & Hs & Hrest)]; simpl.
  - exists "". split; [done | by left].
  - destruct (Ascii.eqb_spec c sep) as [->|Hne].
    + exists (String sep s). split; [done | right; by exists s].
    + exists rest. split; [rewrite append_cons; by f_equal | done].
Qed.

Lemma first_segment_at_sep (sep : ascii) (r : string) :
  first_segment sep (String sep r) = "".
Proof. simpl. by rewrite Ascii.eqb_refl. Qed.

(** A chunk without separator, followed by a separator and anything else,
    is the first segment. *)
Lemma first_segment_app (sep : ascii) (chunk r : string) :
  contains sep chunk = false ->
  first_segment sep (chunk +:+ String sep r) = chunk.
Proof.
  induction chunk as [|c chunk IH]; intros Hc.
  - rewrite append_nil. apply first_segment_at_sep.
  - rewrite append_cons. simpl in *.
    destruct (Ascii.eqb c sep); [done|]. f_equal. by apply IH.
Qed.

End PyStrFacts.

(** ** Names *)

Lemma ModuleType_unbound : load_global "ModuleType" = Raise (NameError "ModuleType").
Proof. reflexivity. Qed.

(** Every other global name that subfolder.py loads is bound. *)
Lemma used_names_bound :
  Forall (fun name => load_global name = Ok tt)
    [ "super"; "hasattr"; "len"; "settings"; "ImproperlyConfigured";
      "connection"; "set_urlconf"; "clear_url_caches"; "path"; "include";
      "get_public_schema_name"; "get_tenant_model"; "get_subfolder_prefix";
      "get_tenant_domain_model"; "has_multi_type_tenants";
      "get_tenant_types" ].
Proof. repeat constructor. Qed.

(** ** The paths through [process_request] *)

Ltac unfold_calls :=
  cbv [mbind M_bind bind get mret M_ret ret global raise modify emit
       set_request set_heap set_connection_tenant set_urls alloc
       setattr_tenant setattr_request getattr_request getattr_tenant index
       get_subfolder_prefix get_public_schema_name has_multi_type_tenants
       get_tenant_types settings_ROOT_URLCONF getitem get_tenant_type
       connection_set_schema_to_public connection_set_tenant
       clear_url_caches set_urlconf tenant_model_objects_get get_tenant
       setup_url_routing try_except no_tenant_found].

Section Paths.

#[local] Arguments PyStr.startswith : simpl never.
#[local] Arguments PyStr.split : simpl never.
#[local] Arguments PyStr.slice_from : simpl never.
#[local] Arguments PyStr.len : simpl never.
#[local] Arguments format_slashes : simpl never.

Context (E : Env).

Lemma alter_new_object (f : gmap string val -> gmap string val)
    (h : list (gmap string val)) (row : gmap string val) :
  alter f (List.length h) (h ++ [row])%list = (h ++ [f row])%list.
Proof. induction h as [|o h IH]; simpl; [done | by f_equal]. Qed.

(** [get_tenant_urlconf] never returns: the base class of the local class
    is not a bound name, so the class statement raises, unless looking up
    the tenant type's urlconf has raised before. *)
Lemma get_tenant_urlconf_raises (tenant : loc) (s : State) :
  exists e,
    get_tenant_urlconf E tenant s = (Raise e, s)
    /\ (e = NameError "ModuleType"
        \/ (multi_type_tenants E = true /\ exists key, e = KeyError key)).
Proof.
  unfold get_tenant_urlconf. unfold_calls. simpl.
  destruct (multi_type_tenants E) eqn:Hmulti; simpl.
  - destruct (tenant_types E !! _) as [entry|] eqn:Htype; simpl.
    + destruct (entry !! "URLCONF") as [urlconf|] eqn:Hconf; simpl.
      * eexists; split; [reflexivity | by left].
      * eexists; split; [reflexivity | right; eauto].
    + eexists; split; [reflexivity | right; eauto].
  - eexists; split; [reflexivity | by left].
Qed.

(** What the method is written to return, past the class statement's base:
    a module whose [urlpatterns] nest the urlconf under
    "<prefix>/<subfolder>/". *)
Lemma new_TenantUrlConf_nests (prefix : val) (urlconf subfolder : string)
    (tenant : loc) (o : gmap string val) (s : State) :
  heap s !! tenant = Some o ->
  o !! "domain_subfolder" = Some (VStr subfolder) ->
  new_TenantUrlConf prefix urlconf tenant s
  = (Ok (VModule
           {| module_name := subfolder;
              urlpatterns :=
                [ path_include
                    (py_str prefix +:+ "/" +:+ subfolder +:+ "/") urlconf ] |}),
     s).
Proof.
  intros Hobj Hattr. unfold new_TenantUrlConf. unfold_calls.
  simpl. rewrite Hobj. simpl. rewrite Hattr. simpl.
  rewrite Hobj. simpl. by rewrite Hattr.
Qed.

Context (s : State).

Lemma process_request_short_circuit :
  hasattr (request s) "tenant" = true ->
  process_request E s = (Ok tt, s).
Proof.
  intros Hhas. unfold process_request. unfold_calls.
  simpl. by rewrite Hhas.
Qed.

Hypothesis Hfresh : hasattr (request s) "tenant" = false.

Lemma process_request_public_missing :
  on_tenant_path E (request s) = false ->
  tenant_rows E (public_schema_name E) = None ->
  process_request E s =
    (Raise (Http404 "Unable to find public tenant"),
     {| request := request s; heap := heap s;
        connection_tenant := FakeTenant (public_schema_name E);
        urls := urls s;
        log := log s ++ [EvSetSchemaToPublic;
                         EvTenantObjectsGet (public_schema_name E)] |}).
Proof.
  unfold on_tenant_path, prefix_path. intros Hpath Hrow.
  unfold process_request. unfold_calls.
  simpl. rewrite Hfresh. simpl. rewrite Hpath, Hrow. simpl.
  by rewrite <- !app_assoc.
Qed.

Lemma process_request_public_found (row : gmap string val)
    (r : Request) (u : UrlState) :
  on_tenant_path E (request s) = false ->
  tenant_rows E (public_schema_name E) = Some row ->
  url_routing E true (request s) (urls s) = (r, u) ->
  let tenant := List.length (heap s) in
  let hostname := hostname_of E (request s) in
  process_request E s =
    (Ok tt,
     {| request := {| path := path r;
                      extra := <["tenant" := VRef tenant]> (extra r) |};
        heap := heap s ++ [<["domain_url" := VStr hostname]> row];
        connection_tenant := TenantRef tenant;
        urls := {| urlconf_override := urlconf_override u;
                   url_cache := [] |};
        log := log s ++ [EvSetSchemaToPublic;
                         EvTenantObjectsGet (public_schema_name E);
                         EvSetupUrlRouting true;
                         EvSetattrTenant tenant "domain_url" (VStr hostname);
                         EvSetattrRequest "tenant" (VRef tenant);
                         EvSetTenant tenant;
                         EvClearUrlCaches] |}).
Proof.
  unfold on_tenant_path, prefix_path. intros Hpath Hrow Hrouting.
  unfold process_request. unfold_calls.
  simpl. rewrite Hfresh. simpl. rewrite Hpath, Hrow. simpl.
  rewrite Hrouting. simpl. rewrite lookup_insert_eq. simpl.
  rewrite alter_new_object. by rewrite <- !app_assoc.
Qed.

Lemma process_request_tenant_missing :
  on_tenant_path E (request s) = true ->
  domain_rows E (subfolder_of E (request s)) = None ->
  process_request E s =
    (Raise (Http404 ("No tenant for subfolder " +:+ PyStr.dq
                     +:+ hostname_of E (request s) +:+ PyStr.dq)),
     {| request := request s; heap := heap s;
        connection_tenant := FakeTenant (public_schema_name E);
        urls := urls s;
        log := log s ++ [EvSetSchemaToPublic;
                         EvGetTenant (subfolder_of E (request s))] |}).
Proof.
  unfold on_tenant_path, subfolder_of, path_suffix, prefix_path.
  intros Hpath Hrow.
  unfold process_request. unfold_calls.
  simpl. rewrite Hfresh. simpl. rewrite Hpath. simpl.
  rewrite split_head. simpl. rewrite Hrow. simpl.
  by rewrite <- !app_assoc.
Qed.

Lemma process_request_tenant_found (row : gmap string val) :
  on_tenant_path E (request s) = true ->
  domain_rows E (subfolder_of E (request s)) = Some row ->
  let tenant := List.length (heap s) in
  let subfolder := subfolder_of E (request s) in
  exists e,
    process_request E s =
      (Raise e,
       {| request := request s;
          heap := heap s ++ [<["domain_subfolder" := VStr subfolder]> row];
          connection_tenant := FakeTenant (public_schema_name E);
          urls := urls s;
          log := log s ++ [EvSetSchemaToPublic;
                           EvGetTenant subfolder;
                           EvSetattrTenant tenant "domain_subfolder"
                             (VStr subfolder)] |})
    /\ (e = NameError "ModuleType"
        \/ (multi_type_tenants E = true /\ exists key, e = KeyError key)).
Proof.
  unfold on_tenant_path, subfolder_of, path_suffix, prefix_path.
  intros Hpath Hrow.
  unfold process_request.
  cbv [mbind M_bind bind get mret M_ret ret global raise modify emit
       set_request set_heap set_connection_tenant set_urls alloc
       setattr_tenant index get_subfolder_prefix
       connection_set_schema_to_public get_tenant try_except].
  simpl. rewrite Hfresh. simpl. rewrite Hpath. simpl.
  rewrite split_head. simpl. rewrite Hrow. simpl.
  rewrite alter_new_object.
  match goal with
  | |- context [get_tenant_urlconf E ?l ?st] =>
      destruct (get_tenant_urlconf_raises l st) as (e & Hrun & He)
  end.
  rewrite Hrun. exists e. split; [|exact He].
  by rewrite <- !app_assoc.
Qed.

End Paths.

(** ** The prefix and the path *)

Lemma prefix_path_Some (E : Env) (p : string) :
  subfolder_prefix E = Some p -> prefix_path E = "/" +:+ p +:+ "/".
Proof. unfold prefix_path. by intros ->. Qed.

Lemma append_assoc (a b c : string) : (a +:+ b) +:+ c = a +:+ b +:+ c.
Proof.
  induction a as [|x a IH]; [done|].
  rewrite !append_cons. by f_equal.
Qed.

(** A path made of the prefix and a suffix is a tenant path, and the suffix
    is what the code splits. *)
Lemma under_prefix (E : Env) (r : Request) (p suffix : string) :
  subfolder_prefix E = Some p ->
  path r = "/" +:+ p +:+ "/" +:+ suffix ->
  on_tenant_path E r = true /\ path_suffix E r = suffix.
Proof.
  intros Hp Hpath. unfold on_tenant_path, path_suffix.
  rewrite (prefix_path_Some E p Hp), Hpath.
  replace ("/" +:+ p +:+ "/" +:+ suffix)
    with (("/" +:+ p +:+ "/") +:+ suffix)
    by (by rewrite !append_assoc).
  split; [apply startswith_app | apply slice_from_app].
Qed.

(** A tenant path is the prefix followed by its suffix. *)
Lemma on_tenant_path_inv (E : Env) (r : Request) :
  on_tenant_path E r = true -> path r = prefix_path E +:+ path_suffix E r.
Proof. apply startswith_inv. Qed.

(** ** Events *)

Lemma lookups_app (evs evs' : list event) :
  lookups (evs ++ evs') = (lookups evs ++ lookups evs')%list.
Proof. apply List.filter_app. Qed.

Lemma cache_clears_app (evs evs' : list event) :
  cache_clears (evs ++ evs') = cache_clears evs + cache_clears evs'.
Proof. unfold cache_clears. by rewrite List.filter_app, length_app. Qed.

(** ** The claims *)

(** Case analysis on the path a request without tenant attribute takes:
    the branch, then the outcome of its lookup. *)
Ltac by_path E s Hfresh :=
  let Hpath := fresh "Hpath" in
  let Hrow := fresh "Hrow" in
  let Hrun := fresh "Hrun" in
  destruct (on_tenant_path E (request s)) eqn:Hpath;
  [ destruct (domain_rows E (subfolder_of E (request s))) as [?row|] eqn:Hrow;
    [ destruct (process_request_tenant_found E s Hfresh _ Hpath Hrow)
        as (?e & Hrun & ?He)
    | pose proof (process_request_tenant_missing E s Hfresh Hpath Hrow)
        as Hrun ]
  | destruct (tenant_rows E (public_schema_name E)) as [?row|] eqn:Hrow;
    [ let Hrouting := fresh "Hrouting" in
      destruct (url_routing E true (request s) (urls s)) as [?r ?u]
        eqn:Hrouting;
      pose proof (process_request_public_found E s Hfresh _ _ _
                    Hpath Hrow Hrouting) as Hrun
    | pose proof (process_request_public_missing E s Hfresh Hpath Hrow)
        as Hrun ] ];
  cbv zeta in Hrun; rewrite Hrun; clear Hrun; simpl.

(** C1: a request without tenant attribute is dispatched on one condition.
    When its path does not start with the prefix path, the only database
    lookup is that of the tenant of the public schema name; when it does,
    the only lookup is the domain lookup for the first segment of the path
    after the prefix. Either way exactly one lookup runs. *)
Theorem process_request_dispatch (E : Env) (s : State) :
  hasattr (request s) "tenant" = false ->
  let s' := (process_request E s).2 in
  (on_tenant_path E (request s) = false ->
     lookups (log s')
     = (lookups (log s) ++ [EvTenantObjectsGet (public_schema_name E)])%list)
  /\ (on_tenant_path E (request s) = true ->
     lookups (log s')
     = (lookups (log s) ++ [EvGetTenant (subfolder_of E (request s))])%list)
  /\ List.length (lookups (log s')) = S (List.length (lookups (log s))).
Proof.
  intros Hfresh s'. subst s'.
  by_path E s Hfresh; rewrite lookups_app; simpl;
    (split; [done | split; [done |]]);
    rewrite length_app; simpl; lia.
Qed.

Lemma process_request_dispatch_witness :
  lookups (log (process_request site (incoming "/about/")).2)
  = [EvTenantObjectsGet "public"]
  /\ lookups (log (process_request site (incoming "/clients/acme/page")).2)
     = [EvGetTenant "acme"].
Proof.
  split.
  - exact (proj1 (process_request_dispatch site (incoming "/about/")
                    eq_refl) eq_refl).
  - exact (proj1 (proj2 (process_request_dispatch site
                           (incoming "/clients/acme/page") eq_refl)) eq_refl).
Defined.

(** C2: on the tenant branch the key of the domain lookup is the first
    "/"-separated segment of the request path after the prefix path, and
    when the lookup finds a tenant, that segment is stored on the tenant
    object as its [domain_subfolder]. *)
Theorem tenant_lookup_key (E : Env) (s : State) (p suffix : string) :
  hasattr (request s) "tenant" = false ->
  subfolder_prefix E = Some p ->
  path (request s) = "/" +:+ p +:+ "/" +:+ suffix ->
  let key := PyStr.first_segment "/" suffix in
  let s' := (process_request E s).2 in
  lookups (log s') = (lookups (log s) ++ [EvGetTenant key])%list
  /\ (forall row, domain_rows E key = Some row ->
        heap s'
        = (heap s ++ [<["domain_subfolder" := VStr key]> row])%list
        /\ heap s' !! List.length (heap s) ≫= (.!! "domain_subfolder")
           = Some (VStr key)).
Proof.
  intros Hfresh Hp Hreq key s'. subst key s'.
  destruct (under_prefix E (request s) p suffix Hp Hreq) as [Hon Hsuffix].
  assert (subfolder_of E (request s) = PyStr.first_segment "/" suffix)
    as Hkey by (unfold subfolder_of; by rewrite Hsuffix).
  destruct (domain_rows E (subfolder_of E (request s))) as [row|] eqn:Hrow.
  - destruct (process_request_tenant_found E s Hfresh row Hon Hrow)
      as (e & Hrun & _).
    cbv zeta in Hrun. rewrite Hrun. simpl.
    rewrite lookups_app. simpl. rewrite Hkey in *.
    split; [done|]. intros row' Hrow'.
    assert (row' = row) as -> by congruence.
    split; [done|].
    rewrite lookup_app_r by done.
    rewrite Nat.sub_diag. simpl. apply lookup_insert_eq.
  - rewrite (process_request_tenant_missing E s Hfresh Hon Hrow). simpl.
    rewrite lookups_app. simpl. rewrite Hkey in *.
    split; [done|]. intros row' Hrow'. congruence.
Qed.

Lemma tenant_lookup_key_witness :
  lookups (log (process_request site (incoming "/clients/acme/page/1")).2)
  = [EvGetTenant "acme"]
  /\ heap (process_request site (incoming "/clients/acme/page/1")).2
     = [<["domain_subfolder" := VStr "acme"]>
          {[ "schema_name" := VStr "acme" ]}].
Proof.
  pose proof (tenant_lookup_key site (incoming "/clients/acme/page/1")
                "clients" "acme/page/1" eq_refl eq_refl eq_refl) as [Hkey Hobj].
  split; [exact Hkey | exact (proj1 (Hobj _ eq_refl))].
Defined.

(** C3: [process_request] raises the not-found exception exactly when the
    lookup of the branch taken fails: the public tenant on the public
    branch, the domain on the tenant branch. *)
Theorem process_request_not_found_iff (E : Env) (s : State) :
  (exists msg,
     (process_request E s).1 = Raise (TENANT_NOT_FOUND_EXCEPTION msg))
  <-> hasattr (request s) "tenant" = false
      /\ ((on_tenant_path E (request s) = false
           /\ tenant_rows E (public_schema_name E) = None)
          \/ (on_tenant_path E (request s) = true
              /\ domain_rows E (subfolder_of E (request s)) = None)).
Proof.
  unfold TENANT_NOT_FOUND_EXCEPTION.
  destruct (hasattr (request s) "tenant") eqn:Hfresh.
  - rewrite (process_request_short_circuit E s Hfresh). simpl.
    split; [intros [msg Hmsg]; discriminate | intros [? _]; discriminate].
  - by_path E s Hfresh.
    + split.
      * intros [msg Hmsg].
        destruct He as [-> | (_ & key & ->)]; discriminate.
      * intros [_ [[? _] | [_ ?]]]; discriminate.
    + split; [intros _ | intros _; eauto].
      split; [done | right; done].
    + split; [intros [msg Hmsg]; discriminate |].
      intros [_ [[_ ?] | [? _]]]; discriminate.
    + split; [intros _ | intros _; eauto].
      split; [done | left; done].
Qed.

Lemma process_request_not_found_iff_witness :
  (process_request site (incoming "/clients/nobody/")).1
  = Raise (Http404 ("No tenant for subfolder " +:+ PyStr.dq
                    +:+ "example.com" +:+ PyStr.dq))
  /\ exists msg,
       (process_request site (incoming "/clients/nobody/")).1
       = Raise (TENANT_NOT_FOUND_EXCEPTION msg).
Proof.
  split; [reflexivity|].
  apply (proj2 (process_request_not_found_iff site
                  (incoming "/clients/nobody/"))).
  split; [reflexivity | right; split; reflexivity].
Defined.

(** C4: on a tenant path whose domain lookup succeeds, routing is not
    configured. The request "/clients/acme/page" reaches
    [get_tenant_urlconf], whose class statement names the unbound
    [ModuleType]: [process_request] ends in [NameError], [request.urlconf]
    is not assigned and no urlconf is installed for the thread. *)
Theorem tenant_urlconf_NameError :
  let s := incoming "/clients/acme/page" in
  on_tenant_path site (request s) = true
  /\ domain_rows site (subfolder_of site (request s))
     = Some {[ "schema_name" := VStr "acme" ]}
  /\ (process_request site s).1 = Raise (NameError "ModuleType")
  /\ extra (request (process_request site s).2) !! "urlconf" = None
  /\ urlconf_override (urls (process_request site s).2) = None
  /\ (get_tenant_urlconf site 0
        {| request := request s;
           heap := [ {[ "schema_name" := VStr "acme";
                        "domain_subfolder" := VStr "acme" ]} ];
           connection_tenant := connection_tenant s;
           urls := urls s; log := [] |}).1
     = Raise (NameError "ModuleType").
Proof. repeat split; vm_compute; reflexivity. Qed.

(** C5, as stated, fails on a request another middleware has resolved:
    [process_request] returns without raising, [request.tenant] is the
    tenant object 0, and the connection stays on the public schema. *)
Lemma short_circuit_keeps_connection :
  let s := resolved_upstream "/clients/acme/page" in
  (process_request site s).1 = Ok tt
  /\ extra (request (process_request site s).2) !! "tenant" = Some (VRef 0)
  /\ connection_tenant (process_request site s).2 = FakeTenant "public"
  /\ connection_tenant (process_request site s).2 <> TenantRef 0.
Proof. repeat split; vm_compute; [reflexivity.. | discriminate]. Qed.

(** C5, amended: for every request without tenant attribute that
    [process_request] completes without raising, the connection ends up on
    the tenant assigned to [request.tenant]: [set_schema_to_public] is
    called first, then the tenant is assigned to [request.tenant] and
    [set_tenant] is called with it. *)
Theorem connection_follows_request_tenant (E : Env) (s : State) :
  hasattr (request s) "tenant" = false ->
  (process_request E s).1 = Ok tt ->
  let s' := (process_request E s).2 in
  exists tenant before after,
    extra (request s') !! "tenant" = Some (VRef tenant)
    /\ connection_tenant s' = TenantRef tenant
    /\ log s'
       = (log s ++ [EvSetSchemaToPublic] ++ before
            ++ [EvSetattrRequest "tenant" (VRef tenant); EvSetTenant tenant]
            ++ after)%list.
Proof.
  intros Hfresh. by_path E s Hfresh; intros Hok; try discriminate.
  eexists _, [_; _; _], [_]. simpl.
  split; [apply lookup_insert_eq | split; reflexivity].
Qed.

Lemma connection_follows_request_tenant_witness :
  exists tenant before after,
    extra (request (process_request site (incoming "/about/")).2) !! "tenant"
    = Some (VRef tenant)
    /\ connection_tenant (process_request site (incoming "/about/")).2
       = TenantRef tenant
    /\ log (process_request site (incoming "/about/")).2
       = ([] ++ [EvSetSchemaToPublic] ++ before
            ++ [EvSetattrRequest "tenant" (VRef tenant); EvSetTenant tenant]
            ++ after)%list.
Proof.
  exact (connection_follows_request_tenant site (incoming "/about/")
           eq_refl eq_refl).
Defined.

(** C6: on a tenant path whose domain lookup succeeds, the URL cache is
    not cleared. The request "/clients/acme/page" resolves the tenant
    "acme" and then stops at the [NameError] of [get_tenant_urlconf],
    before the connection is switched and before [clear_url_caches]. *)
Theorem tenant_branch_never_clears :
  let s := incoming "/clients/acme/page" in
  lookups (log (process_request site s).2) = [EvGetTenant "acme"]
  /\ List.length (heap (process_request site s).2) = 1
  /\ (process_request site s).1 = Raise (NameError "ModuleType")
  /\ cache_clears (log (process_request site s).2) = 0
  /\ url_cache (urls (process_request site s).2) = ["/clients/other/"]
  /\ connection_tenant (process_request site s).2 = FakeTenant "public".
Proof. repeat split; vm_compute; reflexivity. Qed.

(** Every assignment [process_request] itself makes is one of those four.
    What the inherited [setup_url_routing] does to the request it is handed
    on the public branch is not among these events. *)
Lemma process_request_own_assignments (E : Env) (s : State) :
  forallb own_attribute (log s) = true ->
  forallb own_attribute (log (process_request E s).2) = true.
Proof.
  intros Hlog.
  destruct (hasattr (request s) "tenant") eqn:Hfresh.
  - by rewrite (process_request_short_circuit E s Hfresh).
  - by_path E s Hfresh; rewrite forallb_app, Hlog; reflexivity.
Qed.

(** On the public branch the request [process_request] leaves behind is the
    one [setup_url_routing] handed back, with [tenant] set. *)
Lemma process_request_public_request (E : Env) (s : State) :
  hasattr (request s) "tenant" = false ->
  on_tenant_path E (request s) = false ->
  (process_request E s).1 = Ok tt ->
  let r := (url_routing E true (request s) (urls s)).1 in
  request (process_request E s).2
  = {| path := path r;
       extra := <["tenant" := VRef (List.length (heap s))]> (extra r) |}.
Proof.
  intros Hfresh Hpublic.
  by_path E s Hfresh; try discriminate; intros Hok; try discriminate.
  reflexivity.
Qed.

(** C8: a request that already has a tenant attribute is left alone:
    [process_request] returns at once, with no lookup, and the request, the
    tenant objects, the connection and the URL resolver state are as they
    were. *)
Theorem process_request_already_resolved (E : Env) (s : State) :
  hasattr (request s) "tenant" = true ->
  process_request E s = (Ok tt, s)
  /\ (let s' := (process_request E s).2 in
      lookups (log s') = lookups (log s)
      /\ log s' = log s
      /\ request s' = request s
      /\ heap s' = heap s
      /\ connection_tenant s' = connection_tenant s
      /\ urls s' = urls s).
Proof.
  intros Hhas. by rewrite (process_request_short_circuit E s Hhas).
Qed.

Lemma process_request_already_resolved_witness :
  process_request site (resolved_upstream "/clients/acme/page")
  = (Ok tt, resolved_upstream "/clients/acme/page").
Proof.
  exact (proj1 (process_request_already_resolved site
                  (resolved_upstream "/clients/acme/page") eq_refl)).
Defined.

(** C9: the constructor raises [ImproperlyConfigured] exactly when
    [get_subfolder_prefix()] is absent or empty; with a non-empty prefix it
    succeeds and the middleware holds [get_response]. *)
Theorem init_raises_iff (E : Env) (H : Type) (handler : H) :
  ((exists msg, __init__ E handler = Raise (ImproperlyConfigured msg))
   <-> (subfolder_prefix E = None \/ subfolder_prefix E = Some ""))
  /\ (forall p, subfolder_prefix E = Some p -> p <> "" ->
        __init__ E handler = Ok {| get_response := handler |}).
Proof.
  unfold __init__. simpl.
  destruct (subfolder_prefix E) as [p|]; simpl.
  - destruct (String.eqb_spec p "") as [->|Hp]; simpl.
    + split; [split; eauto | intros p Hp Hne; congruence].
    + split; [split|].
      * intros [msg Hmsg]. discriminate.
      * intros [? | ?]; congruence.
      * done.
  - split; [split; eauto | intros p Hp; discriminate].
Qed.

Lemma init_raises_iff_witness :
  __init__ site 7 = Ok {| get_response := 7 |}.
Proof.
  refine (proj2 (init_raises_iff site nat 7) "clients" eq_refl _).
  discriminate.
Defined.

(** The lookups of a request whose path is the prefix path followed by
    [suffix]. *)
Lemma tenant_path_lookups (E : Env) (s : State) (p suffix : string) :
  hasattr (request s) "tenant" = false ->
  subfolder_prefix E = Some p ->
  path (request s) = "/" +:+ p +:+ "/" +:+ suffix ->
  lookups (log (process_request E s).2)
  = (lookups (log s) ++ [EvGetTenant (PyStr.first_segment "/" suffix)])%list.
Proof.
  intros Hfresh Hp Hreq.
  destruct (under_prefix E (request s) p suffix Hp Hreq) as [Hon Hsuffix].
  assert (subfolder_of E (request s) = PyStr.first_segment "/" suffix)
    as Hkey by (unfold subfolder_of; by rewrite Hsuffix).
  destruct (domain_rows E (subfolder_of E (request s))) as [row|] eqn:Hrow.
  - destruct (process_request_tenant_found E s Hfresh row Hon Hrow)
      as (e & Hrun & _).
    cbv zeta in Hrun. rewrite Hrun. simpl.
    rewrite lookups_app. simpl. by rewrite Hkey.
  - rewrite (process_request_tenant_missing E s Hfresh Hon Hrow). simpl.
    rewrite lookups_app. simpl. by rewrite Hkey.
Qed.

(** [process_request] never fails on indexing the chunks. *)
Lemma process_request_no_IndexError (E : Env) (s : State) :
  (process_request E s).1 <> Raise IndexError.
Proof.
  destruct (hasattr (request s) "tenant") eqn:Hfresh.
  - by rewrite (process_request_short_circuit E s Hfresh).
  - by_path E s Hfresh; try discriminate.
    destruct He as [-> | (_ & key & ->)]; discriminate.
Qed.

(** C10: extracting the subfolder cannot fail: splitting on "/" always
    yields a first chunk, so [process_request] never raises [IndexError].
    When the path is the prefix path alone, or the prefix path is followed
    at once by another "/", the subfolder is the empty string, and the
    domain lookup is made with the empty string as its key. *)
Theorem subfolder_extraction_total (E : Env) (s : State) :
  (forall suffix, exists chunk chunks,
      PyStr.split "/" suffix = chunk :: chunks)
  /\ (process_request E s).1 <> Raise IndexError
  /\ (forall p rest,
        hasattr (request s) "tenant" = false ->
        subfolder_prefix E = Some p ->
        path (request s) = "/" +:+ p +:+ "/"
        \/ path (request s) = "/" +:+ p +:+ "/" +:+ "/" +:+ rest ->
        PyStr.split "/" (path_suffix E (request s)) !! 0 = Some ""
        /\ lookups (log (process_request E s).2)
           = (lookups (log s) ++ [EvGetTenant ""])%list).
Proof.
  split; [|split].
  - intros suffix. pose proof (split_nonempty "/" suffix) as Hne.
    destruct (PyStr.split "/" suffix) as [|chunk chunks]; [done | eauto].
  - apply process_request_no_IndexError.
  - intros p rest Hfresh Hp Hreq.
    assert (exists suffix,
               path (request s) = "/" +:+ p +:+ "/" +:+ suffix
               /\ PyStr.first_segment "/" suffix = "")
      as (suffix & Hsuffix & Hempty).
    { destruct Hreq as [Hreq | Hreq].
      - exists "". split; [by rewrite Hreq | done].
      - exists ("/" +:+ rest). split; [done|].
        apply first_segment_at_sep. }
    split.
    + destruct (under_prefix E (request s) p suffix Hp Hsuffix) as [_ ->].
      by rewrite split_head, Hempty.
    + rewrite (tenant_path_lookups E s p suffix Hfresh Hp Hsuffix).
      by rewrite Hempty.
Qed.

Lemma subfolder_extraction_total_witness :
  lookups (log (process_request site (incoming "/clients/")).2)
  = [EvGetTenant ""]
  /\ lookups (log (process_request site (incoming "/clients//x")).2)
     = [EvGetTenant ""].
Proof.
  split.
  - exact (proj2 (proj2 (proj2 (subfolder_extraction_total site
             (incoming "/clients/"))) "clients" "" eq_refl eq_refl
             (or_introl eq_refl))).
  - exact (proj2 (proj2 (proj2 (subfolder_extraction_total site
             (incoming "/clients//x"))) "clients" "x" eq_refl eq_refl
             (or_intror eq_refl))).
Defined.

(** ** Further properties of the methods *)

Lemma startswith_len (s p : string) :
  PyStr.startswith s p = true -> PyStr.len p <= PyStr.len s.
Proof.
  revert s. induction p as [|c p IH]; intros s Hs; simpl in *; [lia|].
  destruct s as [|d s]; [done|].
  destruct (Ascii.eqb c d); [|done].
  apply IH in Hs. unfold PyStr.len in *. simpl. lia.
Qed.

Lemma urlconf_installs_app (evs evs' : list event) :
  urlconf_installs (evs ++ evs')
  = (urlconf_installs evs ++ urlconf_installs evs')%list.
Proof. apply List.filter_app. Qed.

(** X1: [get_tenant_urlconf] never returns a value, whatever the settings,
    the tenant and the state: it raises, [NameError] for the unbound base
    of its class or [KeyError] from the tenant types before that, and it
    leaves the state as it found it. Without multi-type tenants the error
    is always the [NameError]. *)
Theorem get_tenant_urlconf_never_returns (E : Env) (tenant : loc) (s : State) :
  (exists e,
      get_tenant_urlconf E tenant s = (Raise e, s)
      /\ (e = NameError "ModuleType" \/ exists key, e = KeyError key))
  /\ (multi_type_tenants E = false ->
      get_tenant_urlconf E tenant s = (Raise (NameError "ModuleType"), s)).
Proof.
  destruct (get_tenant_urlconf_raises E tenant s) as (e & Hrun & He).
  split.
  - exists e. split; [done|].
    destruct He as [-> | (_ & key & ->)]; eauto.
  - intros Hsingle. rewrite Hrun.
    destruct He as [-> | (Hmulti & _)]; [done | congruence].
Qed.

Lemma get_tenant_urlconf_never_returns_witness :
  get_tenant_urlconf site 0 (with_tenant_of_type "shop")
  = (Raise (NameError "ModuleType"), with_tenant_of_type "shop").
Proof.
  exact (proj2 (get_tenant_urlconf_never_returns site 0
                  (with_tenant_of_type "shop")) eq_refl).
Defined.

(** X2: with multi-type tenants, a tenant whose type is not among the
    tenant types makes [get_tenant_urlconf] raise [KeyError] with that type
    as key, and a type declared without "URLCONF" makes it raise
    [KeyError] with key "URLCONF"; a type with a urlconf gets as far as
    the [NameError]. *)
Theorem get_tenant_urlconf_multi_type (E : Env) (tenant : loc) (s : State) :
  multi_type_tenants E = true ->
  let type := tenant_type_of E (default ∅ (heap s !! tenant)) in
  (tenant_types E !! type = None ->
   get_tenant_urlconf E tenant s = (Raise (KeyError type), s))
  /\ (forall entry,
        tenant_types E !! type = Some entry ->
        entry !! "URLCONF" = None ->
        get_tenant_urlconf E tenant s = (Raise (KeyError "URLCONF"), s))
  /\ (forall entry urlconf,
        tenant_types E !! type = Some entry ->
        entry !! "URLCONF" = Some urlconf ->
        get_tenant_urlconf E tenant s = (Raise (NameError "ModuleType"), s)).
Proof.
  intros Hmulti type. subst type.
  unfold get_tenant_urlconf. unfold_calls. simpl. rewrite Hmulti. simpl.
  split; [|split].
  - by intros ->.
  - intros entry -> Hconf. simpl. by rewrite Hconf.
  - intros entry urlconf -> Hconf. simpl. by rewrite Hconf.
Qed.

Lemma get_tenant_urlconf_multi_type_witness :
  get_tenant_urlconf typed_site 0 (with_tenant_of_type "forum")
  = (Raise (KeyError "forum"), with_tenant_of_type "forum")
  /\ get_tenant_urlconf typed_site 0 (with_tenant_of_type "blog")
     = (Raise (KeyError "URLCONF"), with_tenant_of_type "blog")
  /\ get_tenant_urlconf typed_site 0 (with_tenant_of_type "shop")
     = (Raise (NameError "ModuleType"), with_tenant_of_type "shop").
Proof.
  split; [|split].
  - exact (proj1 (get_tenant_urlconf_multi_type typed_site 0
                    (with_tenant_of_type "forum") eq_refl) eq_refl).
  - exact (proj1 (proj2 (get_tenant_urlconf_multi_type typed_site 0
                           (with_tenant_of_type "blog") eq_refl))
             {[ "APPS" := "blog" ]} eq_refl eq_refl).
  - exact (proj2 (proj2 (get_tenant_urlconf_multi_type typed_site 0
                           (with_tenant_of_type "shop") eq_refl))
             {[ "URLCONF" := "shop.urls" ]} "shop.urls" eq_refl eq_refl).
Defined.

(** X3: whenever [process_request] raises on a request without tenant
    attribute, it leaves the connection on the public schema, and the
    request and the URL resolver state as they were: no tenant and no
    urlconf has been set on the request. *)
Theorem process_request_fails_on_public_schema (E : Env) (s : State)
    (e : exn) :
  hasattr (request s) "tenant" = false ->
  (process_request E s).1 = Raise e ->
  let s' := (process_request E s).2 in
  connection_tenant s' = FakeTenant (public_schema_name E)
  /\ request s' = request s
  /\ urls s' = urls s.
Proof.
  intros Hfresh. by_path E s Hfresh; intros Hraise; try discriminate; done.
Qed.

Lemma process_request_fails_on_public_schema_witness :
  connection_tenant (process_request site (incoming "/clients/nobody/")).2
  = FakeTenant "public"
  /\ request (process_request site (incoming "/clients/nobody/")).2
     = request (incoming "/clients/nobody/")
  /\ urls (process_request site (incoming "/clients/nobody/")).2
     = urls (incoming "/clients/nobody/").
Proof.
  exact (process_request_fails_on_public_schema site
           (incoming "/clients/nobody/") _ eq_refl eq_refl).
Defined.

(** X4: once [process_request] has returned normally, running it again on
    the same request returns at once and changes nothing: the tenant it
    set makes the second run take the short circuit. *)
Theorem process_request_twice (E : Env) (s : State) :
  (process_request E s).1 = Ok tt ->
  process_request E (process_request E s).2
  = (Ok tt, (process_request E s).2).
Proof.
  destruct (hasattr (request s) "tenant") eqn:Hfresh.
  - intros _. rewrite (process_request_short_circuit E s Hfresh). simpl.
    by apply process_request_short_circuit.
  - by_path E s Hfresh; intros Hok; try discriminate.
    apply process_request_short_circuit.
    unfold hasattr. simpl. by rewrite lookup_insert_eq.
Qed.

Lemma process_request_twice_witness :
  process_request site (process_request site (incoming "/about/")).2
  = (Ok tt, (process_request site (incoming "/about/")).2).
Proof.
  exact (process_request_twice site (incoming "/about/") eq_refl).
Defined.

(** X5: on the tenant branch, the subfolder that is looked up contains no
    "/", and the request path is the prefix path, then that subfolder, then
    either nothing or a "/" and the rest of the path. *)
Theorem tenant_subfolder_parse (E : Env) (s : State) :
  hasattr (request s) "tenant" = false ->
  on_tenant_path E (request s) = true ->
  exists key rest,
    lookups (log (process_request E s).2)
    = (lookups (log s) ++ [EvGetTenant key])%list
    /\ PyStr.contains "/" key = false
    /\ path (request s) = prefix_path E +:+ key +:+ rest
    /\ (rest = "" \/ exists tail, rest = String "/" tail).
Proof.
  intros Hfresh Hon.
  destruct (first_segment_decompose "/" (path_suffix E (request s)))
    as (rest & Hsuffix & Hrest).
  exists (subfolder_of E (request s)), rest.
  split; [|split; [|split]].
  - destruct (domain_rows E (subfolder_of E (request s))) as [row|] eqn:Hrow.
    + destruct (process_request_tenant_found E s Hfresh row Hon Hrow)
        as (e & Hrun & _).
      cbv zeta in Hrun. rewrite Hrun. simpl.
      by rewrite lookups_app.
    + rewrite (process_request_tenant_missing E s Hfresh Hon Hrow). simpl.
      by rewrite lookups_app.
  - apply first_segment_no_sep.
  - rewrite (on_tenant_path_inv E (request s) Hon) at 1.
    f_equal. exact Hsuffix.
  - exact Hrest.
Qed.

Lemma tenant_subfolder_parse_witness :
  exists key rest,
    lookups (log (process_request site (incoming "/clients/acme/page")).2)
    = ([] ++ [EvGetTenant key])%list
    /\ PyStr.contains "/" key = false
    /\ "/clients/acme/page" = prefix_path site +:+ key +:+ rest
    /\ (rest = "" \/ exists tail, rest = String "/" tail).
Proof.
  exact (tenant_subfolder_parse site (incoming "/clients/acme/page")
           eq_refl eq_refl).
Defined.



(** X7: [process_request] itself never installs a urlconf: in no run does
    it assign [request.urlconf] or call [set_urlconf]. On the public branch
    its [urlconf] is [None], and on the tenant branch [get_tenant_urlconf]
    raises before the final block. (What the inherited [setup_url_routing]
    does is not among the events.) *)
Theorem process_request_never_installs_urlconf (E : Env) (s : State) :
  urlconf_installs (log (process_request E s).2) = urlconf_installs (log s).
Proof.
  destruct (hasattr (request s) "tenant") eqn:Hfresh.
  - by rewrite (process_request_short_circuit E s Hfresh).
  - by_path E s Hfresh; rewrite urlconf_installs_app; simpl;
      by rewrite app_nil_r.
Qed.

(** X8: a request path shorter than the prefix path, such as the prefix
    without its closing "/", is handled on the public branch: the lookup
    made is that of the public tenant. *)
Theorem short_path_is_public (E : Env) (s : State) :
  hasattr (request s) "tenant" = false ->
  PyStr.len (path (request s)) < PyStr.len (prefix_path E) ->
  on_tenant_path E (request s) = false
  /\ lookups (log (process_request E s).2)
     = (lookups (log s) ++ [EvTenantObjectsGet (public_schema_name E)])%list.
Proof.
  intros Hfresh Hshort.
  assert (on_tenant_path E (request s) = false) as Hpublic.
  { destruct (on_tenant_path E (request s)) eqn:Hon; [|done].
    apply startswith_len in Hon. lia. }
  split; [done|].
  by_path E s Hfresh; try discriminate; by rewrite lookups_app.
Qed.

Lemma short_path_is_public_witness :
  on_tenant_path site (request (incoming "/clients")) = false
  /\ lookups (log (process_request site (incoming "/clients")).2)
     = ([] ++ [EvTenantObjectsGet "public"])%list.
Proof.
  refine (short_path_is_public site (incoming "/clients") eq_refl _).
  vm_compute. lia.
Defined.

(** X9: the message of the not-found exception. On the public branch it is
    "Unable to find public tenant"; on the tenant branch it quotes the
    hostname of the request, not the subfolder that was looked up. *)
Theorem not_found_message (E : Env) (s : State) (msg : string) :
  (process_request E s).1 = Raise (TENANT_NOT_FOUND_EXCEPTION msg) ->
  (on_tenant_path E (request s) = false ->
   msg = "Unable to find public tenant")
  /\ (on_tenant_path E (request s) = true ->
      msg = "No tenant for subfolder " +:+ PyStr.dq
            +:+ hostname_of E (request s) +:+ PyStr.dq).
Proof.
  unfold TENANT_NOT_FOUND_EXCEPTION.
  destruct (hasattr (request s) "tenant") eqn:Hfresh.
  - by rewrite (process_request_short_circuit E s Hfresh).
  - by_path E s Hfresh; intros Hraise; try discriminate.
    + destruct He as [-> | (_ & key & ->)]; discriminate.
    + split; [done | intros _; congruence].
    + split; [intros _; congruence | done].
Qed.

Lemma not_found_message_witness :
  (process_request site (incoming "/clients/nobody/")).1
  = Raise (Http404 ("No tenant for subfolder " +:+ PyStr.dq
                    +:+ "example.com" +:+ PyStr.dq))
  /\ "No tenant for subfolder " +:+ PyStr.dq +:+ "example.com" +:+ PyStr.dq
     = "No tenant for subfolder " +:+ PyStr.dq
       +:+ hostname_of site (request (incoming "/clients/nobody/"))
       +:+ PyStr.dq.
Proof.
  split; [reflexivity|].
  exact (proj2 (not_found_message site (incoming "/clients/nobody/") _
                  eq_refl) eq_refl).
Defined.

(** X10: no request on a tenant path ever returns normally from
    [process_request]: when the domain is missing it raises the not-found
    exception, and when the domain exists it raises in
    [get_tenant_urlconf], with the URL cache not cleared. *)
Theorem tenant_path_never_completes (E : Env) (s : State) :
  hasattr (request s) "tenant" = false ->
  on_tenant_path E (request s) = true ->
  exists e,
    (process_request E s).1 = Raise e
    /\ cache_clears (log (process_request E s).2) = cache_clears (log s)
    /\ (domain_rows E (subfolder_of E (request s)) = None ->
        exists msg, e = Http404 msg)
    /\ (domain_rows E (subfolder_of E (request s)) <> None ->
        e = NameError "ModuleType" \/ exists key, e = KeyError key).
Proof.
  intros Hfresh Hon.
  by_path E s Hfresh; try discriminate.
  - exists e. split; [done|].
    rewrite cache_clears_app. simpl.
    split; [unfold cache_clears; simpl; lia|].
    split; [done|]. intros _.
    destruct He as [-> | (_ & key & ->)]; eauto.
  - eexists. split; [done|].
    rewrite cache_clears_app. simpl.
    split; [unfold cache_clears; simpl; lia|].
    split; [eauto | done].
Qed.

Lemma tenant_path_never_completes_witness :
  exists e,
    (process_request site (incoming "/clients/acme/page")).1 = Raise e
    /\ cache_clears (log (process_request site
                            (incoming "/clients/acme/page")).2)
       = cache_clears (log (incoming "/clients/acme/page"))
    /\ (domain_rows site
          (subfolder_of site (request (incoming "/clients/acme/page")))
        = None -> exists msg, e = Http404 msg)
    /\ (domain_rows site
          (subfolder_of site (request (incoming "/clients/acme/page")))
        <> None ->
        e = NameError "ModuleType" \/ exists key, e = KeyError key).
Proof.
  exact (tenant_path_never_completes site (incoming "/clients/acme/page")
           eq_refl eq_refl).
Defined.

